(** * Background remover: mask compositing, refinement, settings and model cache

    A shallow embedding of the TypeScript sources of the background-removal
    tool:

    - [client/src/lib/backgroundRemover.ts] and its sibling variants
      (the [removeBackground] pipelines, [refineMask], [loadModel]);
    - [shared/schema.ts] ([settingsSchema]);
    - [server/storage.ts] ([MemStorage]);
    - the [POST /api/settings] handler of [registerRoutes].

    Conventions.  A [Uint8Array] / [Uint8ClampedArray] is a [list Z] read with
    stdpp's lookup (an index past the end reads [undefined], i.e. [None]) and
    written with stdpp's insert (a write past the end of a typed array is
    ignored).  The sources only ever store the constants 0, 1 and 255, so no
    write is clamped or wrapped.  Image widths, heights, array indices and
    loop counters are non-negative integers in the source and are [nat]
    here.  A number of a settings object is a rational ([NaN] and the
    infinities are not represented).  A counting loop
    [for (let i = lo; i < hi; i++) body] is a left fold over [seq]. *)

From stdpp Require Import base list gmap strings.
From Stdlib Require Import ZArith QArith Lia.

Local Open Scope nat_scope.

(** ** Loops and typed arrays *)

Module Js.

(** [for (let i = lo; i < hi; i++) s = body i s] *)
Definition for_range {S : Type} (lo hi : nat) (body : nat → S → S) (s : S) : S :=
  foldl (λ acc i, body i acc) s (seq lo (hi - lo)).

(** [for (let i = 0; i < n; i += 4) s = body i s] *)
Definition for_step4 {S : Type} (n : nat) (body : nat → S → S) (s : S) : S :=
  foldl (λ acc k, body (4 * k) acc) s (seq 0 ((n + 3) / 4)).

(** [a[i] === v] on a typed array: false when [a[i]] is [undefined]. *)
Definition strict_eq (o : option Z) (v : Z) : bool :=
  match o with
  | Some w => Z.eqb w v
  | None => false
  end.

(** [!a[i]]: true for [0] and for [undefined]. *)
Definition falsy (o : option Z) : bool :=
  match o with
  | Some w => Z.eqb w 0
  | None => true
  end.

(** [a[i] > v] with [a[i]] a byte: false when [a[i]] is [undefined]
    ([NaN > v] is false). *)
Definition gt (o : option Z) (v : Z) : bool :=
  match o with
  | Some w => Z.ltb v w
  | None => false
  end.

(** The first [n] rounds of a loop that counts up from [0]. *)
Definition upto {S : Type} (body : nat → S → S) (n : nat) (s : S) : S :=
  foldl (λ acc k, body k acc) s (seq 0 n).

(** [mark c v idxs l]: for each index of [idxs] in turn, write [v] there
    when the test [c] holds; the shape of the marking loops below. *)
Definition mark (c : nat → bool) (v : Z) (idxs : list nat) (l : list Z) : list Z :=
  foldl (λ acc i, if c i then <[i := v]> acc else acc) l idxs.

End Js.

(** ** Neighbour-expansion dilation: [refineMask] *)

Module Dilation.
Import Js.

(** The test of the innermost loop body, at [i = y * width + x].  Inside the
    loops [x ≥ 1] and [y ≥ 1], so [i - 1] and [i - width] are never
    negative. *)
Definition expands (mask : list Z) (width i : nat) : bool :=
  strict_eq (mask !! i) 0 &&
  (strict_eq (mask !! (i - 1)) 1 || strict_eq (mask !! (i + 1)) 1 ||
   strict_eq (mask !! (i - width)) 1 || strict_eq (mask !! (i + width)) 1).

(** One pass of the two inner loops over the interior pixels. *)
Definition sweep (mask : list Z) (width height : nat) (newMask : list Z) : list Z :=
  for_range 1 (height - 1) (λ y nm,
    for_range 1 (width - 1) (λ x nm,
      let i := y * width + x in
      if expands mask width i then <[i := 1%Z]> nm else nm) nm) newMask.

(** The indices [y * width + x] visited by the two inner loops, in order. *)
Definition interior (width height : nat) : list nat :=
  seq 1 (height - 1 - 1) ≫= λ y, (λ x, y * width + x) <$> seq 1 (width - 1 - 1).

(** [refineMask(mask, width, height, iterations)]; [new Uint8Array(mask)]
    copies the bytes of [mask]. *)
Definition refineMask (mask : list Z) (width height iterations : nat) : list Z :=
  for_range 0 iterations (λ _ nm, sweep mask width height nm) mask.

(** The source's default argument [iterations = 2]. *)
Definition refineMask_default (mask : list Z) (width height : nat) : list Z :=
  refineMask mask width height 2.

(** A pixel is foreground when its mask byte is truthy, as tested by the
    cut-out loop ([if (!mask[i])]). *)
Definition is_fg (v : Z) : bool := negb (Z.eqb v 0).

Definition count_fg (mask : list Z) : nat := length (filter (λ v, is_fg v = true) mask).

End Dilation.

(** ** Canvases, image data and the browser's drawing primitives *)

Module Raster.

(** A decoded image, a canvas bitmap or an [ImageData]: [width], [height] and
    the RGBA bytes, row-major, four per pixel. *)
Record t : Type := mk { width : nat; height : nat; data : list Z }.

(** [document.createElement('canvas')] followed by the assignments to
    [canvas.width] and [canvas.height]; also [createImageData(w, h)].
    The bitmap starts as transparent black. *)
Definition create (w h : nat) : t := mk w h (replicate (4 * (w * h)) 0%Z).

(** [ctx.putImageData(d, 0, 0)]: the bitmap becomes [d]; the canvas keeps its
    dimensions. *)
Definition putImageData (c : t) (d : list Z) : t := mk (width c) (height c) d.

(** [ctx.drawImage(img, 0, 0)] on a freshly created canvas: the bitmap
    becomes the decoded pixels of [img]. *)
Definition drawImage (c : t) (img : t) : t := putImageData c (data img).

(** [ctx.getImageData(0, 0, canvas.width, canvas.height).data] *)
Definition getImageData (c : t) : list Z := data c.

(** What [removeBackground] resolves or rejects with. [canvas.toDataURL
    ('image/png')] is a lossless encoding of the canvas, which stands for
    it here. *)
Inductive outcome : Type :=
  | Returned (c : t)
  | Thrown (msg : string).

(** A JavaScript number option of a settings object ([undefined] is [None]);
    [o && o > 0]. *)
Definition positive (o : option Q) : bool :=
  match o with
  | Some q => negb (Qle_bool q 0)
  | None => false
  end.

(** [o ?? d] *)
Definition nullish (o : option Q) (d : Q) : Q := default d o.

(** [o] used as a condition, for an optional boolean. *)
Definition truthy (o : option bool) : bool := default false o.

(** The drawing operations the browser supplies, as effects on the bitmap of
    the canvas drawn to; none of them resizes a canvas. *)
Record browser : Type := {
  (** [ctx.filter = `blur(${r}px)`; ctx.drawImage(canvas, 0, 0)] with
      [ctx.globalAlpha = a], the canvas drawn onto itself *)
  blur_self : Q → Q → nat → nat → list Z → list Z;
  (** [ctx.globalCompositeOperation = 'destination-in';
      ctx.drawImage(src, 0, 0)] *)
  destination_in : nat → nat → list Z → list Z → list Z;
  (** [ctx.drawImage(src, 0, 0)] with ['source-over'] on a canvas that already
      holds a picture *)
  source_over : nat → nat → list Z → list Z → list Z;
}.

Definition blurSelf (B : browser) (r a : Q) (c : t) : t :=
  putImageData c (blur_self B r a (width c) (height c) (data c)).

Definition drawDestinationIn (B : browser) (c src : t) : t :=
  putImageData c (destination_in B (width c) (height c) (data c) (data src)).

Definition drawSourceOver (B : browser) (c src : t) : t :=
  putImageData c (source_over B (width c) (height c) (data c) (data src)).

End Raster.

(** ** The mask builder and the re-threshold loops *)

Module Mask.
Import Js.

(** The loop [for (let i = 0; i < segmentation.data.length; i++)] that
    fills [maskImageData.data] (backgroundRemover.ts lines 67-74). *)
Definition fill_body (labels : list Z) (i : nat) (d : list Z) : list Z :=
  let val := if falsy (labels !! i) then 0%Z else 255%Z in
  let pos := i * 4 in
  <[pos + 3 := 255%Z]> (<[pos + 2 := val]> (<[pos + 1 := val]> (<[pos := val]> d))).

Definition fill (labels : list Z) (d : list Z) : list Z :=
  for_range 0 (length labels) (fill_body labels) d.

(** [createImageData(width, height)] followed by the fill loop. *)
Definition build (labels : list Z) (w h : nat) : list Z :=
  fill labels (Raster.data (Raster.create w h)).

(** [(d[i] + d[i+1] + d[i+2]) / 3 > 128].  The sum of three bytes is an
    exact double and the division is correctly rounded, so the test is
    [sum > 384]; a missing operand makes the sum [NaN] and the test false. *)
Definition avg_gt_128 (a b c : option Z) : bool :=
  match a, b, c with
  | Some x, Some y, Some z => (384 <? x + y + z)%Z
  | _, _, _ => false
  end.

(** Re-threshold of backgroundRemover.ts (lines 84-87): the chained
    assignment writes [d[i+2]], then [d[i+1]], then [d[i]]. *)
Definition avg_body (i : nat) (d : list Z) : list Z :=
  let v := if avg_gt_128 (d !! i) (d !! (i + 1)) (d !! (i + 2)) then 255%Z else 0%Z in
  <[i := v]> (<[i + 1 := v]> (<[i + 2 := v]> d)).

Definition rethreshold_avg (d : list Z) : list Z :=
  for_step4 (length d) avg_body d.

(** Re-threshold of the "improved edge detection" variant (lines 246-257):
    any colour channel above 128. *)
Definition any_body (i : nat) (d : list Z) : list Z :=
  if gt (d !! i) 128 || gt (d !! (i + 1)) 128 || gt (d !! (i + 2)) 128
  then <[i + 2 := 255%Z]> (<[i + 1 := 255%Z]> (<[i := 255%Z]> d))
  else <[i + 2 := 0%Z]> (<[i + 1 := 0%Z]> (<[i := 0%Z]> d)).

Definition rethreshold_any (d : list Z) : list Z :=
  for_step4 (length d) any_body d.

End Mask.

(** ** The [removeBackground] pipelines

    Each variant is modelled from the point where its awaits on the image
    load and on [model.segmentPerson] have resolved: [img] is the decoded
    image and [segmentation] is [segmentation.data].  Whether
    [getContext('2d')] yields a context is an input, one flag per call. *)

Module Pipeline.
Import Js Raster.

Record contexts : Type := { ctx : bool; maskCtx : bool; tempCtx : bool }.

(** The cut-out loop shared by the two direct-alpha variants:
    [if (!mask[i]) pixels[i * 4 + 3] = 0]. *)
Definition cutout_body (mask : list Z) (i : nat) (pixels : list Z) : list Z :=
  let pixelIndex := i * 4 in
  if falsy (mask !! i) then <[pixelIndex + 3 := 0%Z]> pixels else pixels.

Definition cutout (mask : list Z) (pixels : list Z) : list Z :=
  for_range 0 (length mask) (cutout_body mask) pixels.

(** *** The plain variant (no refinement) *)
Module Simple.

Record settings : Type := {
  foregroundThreshold : option Q;
  backgroundThreshold : option Q;
  alphaMatting : option bool;
}.

Definition removeBackground (K : contexts) (img : Raster.t) (segmentation : list Z)
    (s : settings) : outcome :=
  let canvas := Raster.create (width img) (height img) in
  if negb (ctx K) then Thrown "Could not get canvas context" else
  let canvas := drawImage canvas img in
  let pixels := getImageData canvas in
  let pixels := cutout segmentation pixels in
  let canvas := putImageData canvas pixels in
  Returned canvas.

End Simple.

(** *** The variant with [refineMask] and the blur effect *)
Module Refined.

Record settings : Type := {
  foregroundThreshold : option Q;
  blurEffect : option Q;
  refineEdges : option bool;
}.

(** [settings.refineEdges ? refineMask(segmentation.data, img.width,
    img.height) : segmentation.data] *)
Definition effective_mask (img : Raster.t) (segmentation : list Z) (s : settings) : list Z :=
  if truthy (refineEdges s)
  then Dilation.refineMask_default segmentation (width img) (height img)
  else segmentation.

Definition removeBackground (B : browser) (K : contexts) (img : Raster.t)
    (segmentation : list Z) (s : settings) : outcome :=
  let mask := effective_mask img segmentation s in
  let canvas := Raster.create (width img) (height img) in
  if negb (ctx K) then Thrown "Could not get canvas context" else
  let canvas := drawImage canvas img in
  let pixels := getImageData canvas in
  let pixels := cutout mask pixels in
  let canvas := putImageData canvas pixels in
  let canvas :=
    if positive (blurEffect s)
    then blurSelf B (default 0%Q (blurEffect s)) (9 # 10) canvas
    else canvas in
  Returned canvas.

End Refined.

(** *** backgroundRemover.ts: mask canvas, dilation by blur, destination-in *)
Module Remover.

Record options : Type := {
  foregroundThreshold : option Q;
  edgeDilation : option Q;
  edgeBlurAmount : option Q;
}.

(** The mask canvas after [putImageData] and the optional dilation block. *)
Definition mask_stage (B : browser) (img : Raster.t) (segmentation : list Z)
    (o : options) : Raster.t :=
  let maskCanvas := Raster.create (width img) (height img) in
  let maskImageData := Mask.build segmentation (width img) (height img) in
  let maskCanvas := putImageData maskCanvas maskImageData in
  if positive (edgeDilation o) then
    let maskCanvas := blurSelf B (default 0%Q (edgeDilation o)) 1 maskCanvas in
    let dilatedData := getImageData maskCanvas in
    putImageData maskCanvas (Mask.rethreshold_avg dilatedData)
  else maskCanvas.

Definition removeBackground (B : browser) (K : contexts) (img : Raster.t)
    (segmentation : list Z) (o : options) : outcome :=
  let canvas := Raster.create (width img) (height img) in
  if negb (ctx K) then Thrown "Could not get canvas context" else
  let canvas := drawImage canvas img in
  if negb (maskCtx K) then Thrown "Could not get mask context" else
  let maskCanvas := mask_stage B img segmentation o in
  let canvas := drawDestinationIn B canvas maskCanvas in
  let canvas :=
    if positive (edgeBlurAmount o)
    then blurSelf B (default 0%Q (edgeBlurAmount o)) 1 canvas
    else canvas in
  Returned canvas.

End Remover.

(** *** The "improved edge detection" variant *)
Module Improved.

Record settings : Type := {
  foregroundThreshold : option Q;
  edgeDilation : option Q;
  edgeBlurAmount : option Q;
  refineEdges : option bool;
}.

Definition mask_stage (B : browser) (img : Raster.t) (canvas : Raster.t)
    (segmentation : list Z) (s : settings) : Raster.t :=
  let maskCanvas := Raster.create (width img) (height img) in
  let maskPixels := Mask.fill segmentation
                      (data (Raster.create (width canvas) (height canvas))) in
  let maskCanvas := putImageData maskCanvas maskPixels in
  let edgeDilation := nullish (edgeDilation s) 2 in
  if negb (Qle_bool edgeDilation 0) then
    let maskCanvas := blurSelf B edgeDilation 1 maskCanvas in
    let dilatedPixels := getImageData maskCanvas in
    putImageData maskCanvas (Mask.rethreshold_any dilatedPixels)
  else maskCanvas.

Definition removeBackground (B : browser) (K : contexts) (img : Raster.t)
    (segmentation : list Z) (s : settings) : outcome :=
  let canvas := Raster.create (width img) (height img) in
  if negb (ctx K) then Thrown "Could not get canvas context" else
  let canvas := drawImage canvas img in
  if negb (maskCtx K) then Thrown "Could not get mask canvas context" else
  let maskCanvas := mask_stage B img canvas segmentation s in
  let canvas :=
    if truthy (refineEdges s) then
      let tempCanvas := Raster.create (width img) (height img) in
      if tempCtx K then
        let tempCanvas := drawImage tempCanvas img in
        let tempCanvas := drawDestinationIn B tempCanvas maskCanvas in
        drawSourceOver B canvas tempCanvas
      else canvas
    else canvas in
  let canvas := drawDestinationIn B canvas maskCanvas in
  let edgeBlurAmount := nullish (edgeBlurAmount s) 1 in
  let canvas :=
    if negb (Qle_bool edgeBlurAmount 0)
    then blurSelf B edgeBlurAmount 1 canvas
    else canvas in
  Returned canvas.

End Improved.

(** *** The pipelines with their refinement steps left out

    What each pipeline computes when neither the dilation block nor the
    final blur runs: the reference point for "refinement is a no-op". *)
Module Unrefined.

(** The mask canvas as the mask builder leaves it. *)
Definition mask (img : Raster.t) (segmentation : list Z) : Raster.t :=
  putImageData (Raster.create (width img) (height img))
    (Mask.build segmentation (width img) (height img)).

(** The image cut by the built mask with ['destination-in']. *)
Definition composite (B : browser) (img : Raster.t) (segmentation : list Z) : Raster.t :=
  drawDestinationIn B (drawImage (Raster.create (width img) (height img)) img)
    (mask img segmentation).

(** The image with the alpha of its background pixels cleared. *)
Definition cleared (img : Raster.t) (mask : list Z) : Raster.t :=
  putImageData (drawImage (Raster.create (width img) (height img)) img)
    (cutout mask (data img)).

End Unrefined.

End Pipeline.

(** ** shared/schema.ts: [settingsSchema] *)

Module Schema.

(** A value found under a key of the parsed JSON request body.  Arrays and
    nested objects are [JOther]: every field of the schema rejects them. *)
Inductive jsval : Type :=
  | JNull
  | JBool (b : bool)
  | JNum (q : Q)
  | JStr (s : string)
  | JOther.

(** [req.body]: an object with its own keys (an absent key reads
    [undefined]), or anything else. *)
Inductive body : Type :=
  | BodyObject (fields : gmap string jsval)
  | BodyOther.

Inductive BackgroundRemovalModel : Type := u2net | u2netp | u2net_human_seg.
Inductive BackgroundType : Type := transparent | color | image.

Definition model_name (m : BackgroundRemovalModel) : string :=
  match m with
  | u2net => "u2net"
  | u2netp => "u2netp"
  | u2net_human_seg => "u2net_human_seg"
  end.

Definition type_name (t : BackgroundType) : string :=
  match t with
  | transparent => "transparent"
  | color => "color"
  | image => "image"
  end.

(** [z.infer<typeof settingsSchema>] *)
Record Settings : Type := {
  model : BackgroundRemovalModel;
  alphaMatting : bool;
  foregroundThreshold : Q;
  backgroundThreshold : Q;
  backgroundType : BackgroundType;
  backgroundColor : string;
  backgroundImage : option string;
  allowResize : bool;
  allowMove : bool;
}.

Inductive issue_code : Type := invalid_type | invalid_enum_value | too_small | too_big.

Record issue : Type := Issue { path : string; code : issue_code }.

(** The result of validating one value: the issues found, or the output. *)
Definition checked (A : Type) : Type := list issue + A.

(** [z.enum(backgroundRemovalModels)] *)
Definition parse_model (p : string) (v : option jsval) : checked BackgroundRemovalModel :=
  match v with
  | Some (JStr s) =>
      if String.eqb s "u2net" then inr u2net
      else if String.eqb s "u2netp" then inr u2netp
      else if String.eqb s "u2net_human_seg" then inr u2net_human_seg
      else inl [Issue p invalid_enum_value]
  | _ => inl [Issue p invalid_type]
  end.

(** [z.enum(backgroundTypes)] *)
Definition parse_type (p : string) (v : option jsval) : checked BackgroundType :=
  match v with
  | Some (JStr s) =>
      if String.eqb s "transparent" then inr transparent
      else if String.eqb s "color" then inr color
      else if String.eqb s "image" then inr image
      else inl [Issue p invalid_enum_value]
  | _ => inl [Issue p invalid_type]
  end.

(** [z.boolean()] *)
Definition parse_boolean (p : string) (v : option jsval) : checked bool :=
  match v with
  | Some (JBool b) => inr b
  | _ => inl [Issue p invalid_type]
  end.

(** [z.string()] *)
Definition parse_string (p : string) (v : option jsval) : checked string :=
  match v with
  | Some (JStr s) => inr s
  | _ => inl [Issue p invalid_type]
  end.

(** [z.number().min(lo).max(hi)]: both bounds are checked and each failure
    is reported. *)
Definition parse_number (lo hi : Q) (p : string) (v : option jsval) : checked Q :=
  match v with
  | Some (JNum q) =>
      let small := if Qle_bool lo q then [] else [Issue p too_small] in
      let big := if Qle_bool q hi then [] else [Issue p too_big] in
      match small ++ big with
      | [] => inr q
      | l => inl l
      end
  | _ => inl [Issue p invalid_type]
  end.

(** [inner.default(d)]: [undefined] becomes [d]. *)
Definition with_default {A : Type} (d : A) (inner : string → option jsval → checked A)
    (p : string) (v : option jsval) : checked A :=
  match v with
  | None => inr d
  | Some _ => inner p v
  end.

(** [inner.optional()]: [undefined] is let through. *)
Definition optional {A : Type} (inner : string → option jsval → checked A)
    (p : string) (v : option jsval) : checked (option A) :=
  match v with
  | None => inr None
  | Some _ => match inner p v with inl l => inl l | inr a => inr (Some a) end
  end.

Definition issues_of {A : Type} (c : checked A) : list issue :=
  match c with inl l => l | inr _ => [] end.

Inductive parse_result : Type :=
  | Parsed (s : Settings)
  | ZodError (issues : list issue).

(** [settingsSchema.parse(req.body)]: every key of the shape is validated
    and the issues of all of them are collected; the parse throws a
    [ZodError] when there is any. *)
Definition parse (b : body) : parse_result :=
  match b with
  | BodyOther => ZodError [Issue "" invalid_type]
  | BodyObject o =>
      let r1 := parse_model "model" (o !! "model") in
      let r2 := parse_boolean "alphaMatting" (o !! "alphaMatting") in
      let r3 := parse_number 0 100 "foregroundThreshold" (o !! "foregroundThreshold") in
      let r4 := parse_number 0 100 "backgroundThreshold" (o !! "backgroundThreshold") in
      let r5 := with_default transparent parse_type "backgroundType" (o !! "backgroundType") in
      let r6 := with_default "#ffffff" parse_string "backgroundColor" (o !! "backgroundColor") in
      let r7 := optional parse_string "backgroundImage" (o !! "backgroundImage") in
      let r8 := with_default true parse_boolean "allowResize" (o !! "allowResize") in
      let r9 := with_default true parse_boolean "allowMove" (o !! "allowMove") in
      match r1, r2, r3, r4, r5, r6, r7, r8, r9 with
      | inr v1, inr v2, inr v3, inr v4, inr v5, inr v6, inr v7, inr v8, inr v9 =>
          Parsed (Build_Settings v1 v2 v3 v4 v5 v6 v7 v8 v9)
      | _, _, _, _, _, _, _, _, _ =>
          ZodError (issues_of r1 ++ issues_of r2 ++ issues_of r3 ++ issues_of r4 ++
                    issues_of r5 ++ issues_of r6 ++ issues_of r7 ++ issues_of r8 ++
                    issues_of r9)
      end
  end.

End Schema.

(** ** server/storage.ts: [MemStorage] *)

Module Storage.

Record User : Type := { user_id : nat; username : string; password : string }.

(** [typeof imageSettings.$inferSelect] *)
Record ImageSettings : Type := {
  id : nat;
  model : string;
  alphaMatting : bool;
  foregroundThreshold : Q;
  backgroundThreshold : Q;
  backgroundType : string;
  backgroundColor : string;
  backgroundImage : option string;
  allowResize : bool;
  allowMove : bool;
}.

Record MemStorage : Type := {
  users : gmap nat User;
  settings : ImageSettings;
  currentId : nat;
}.

(** [new MemStorage()] *)
Definition constructor : MemStorage :=
  {| users := ∅;
     currentId := 1;
     settings := {| id := 1; model := "u2net"; alphaMatting := false;
                    foregroundThreshold := 50; backgroundThreshold := 50;
                    backgroundType := "transparent"; backgroundColor := "#ffffff";
                    backgroundImage := Some ""; allowResize := true;
                    allowMove := true |} |}.

Definition getDefaultSettings (st : MemStorage) : ImageSettings := settings st.

(** [this.settings = { ...this.settings, ...newSettings }]: the keys of
    [newSettings] win; [backgroundImage] is a key of the parsed object only
    when the request carried one. *)
Definition updateSettings (st : MemStorage) (newSettings : Schema.Settings)
    : MemStorage * ImageSettings :=
  let old := settings st in
  let merged :=
    {| id := id old;
       model := Schema.model_name (Schema.model newSettings);
       alphaMatting := Schema.alphaMatting newSettings;
       foregroundThreshold := Schema.foregroundThreshold newSettings;
       backgroundThreshold := Schema.backgroundThreshold newSettings;
       backgroundType := Schema.type_name (Schema.backgroundType newSettings);
       backgroundColor := Schema.backgroundColor newSettings;
       backgroundImage :=
         match Schema.backgroundImage newSettings with
         | Some s => Some s
         | None => backgroundImage old
         end;
       allowResize := Schema.allowResize newSettings;
       allowMove := Schema.allowMove newSettings |} in
  ({| users := users st; settings := merged; currentId := currentId st |}, merged).

End Storage.

(** ** The settings routes of [registerRoutes] *)

Module Routes.

Inductive payload : Type :=
  | SettingsJson (s : Storage.ImageSettings)
  | ValidationMessage (issues : list Schema.issue)
  | Message (text : string).

Record response : Type := { status : nat; json : payload }.

(** [app.get("/api/settings", ...)] *)
Definition get_settings (st : Storage.MemStorage) : Storage.MemStorage * response :=
  (st, {| status := 200; json := SettingsJson (Storage.getDefaultSettings st) |}).

(** [app.post("/api/settings", ...)]: [settingsSchema.parse] throws before
    [storage.updateSettings] is reached; the [catch] answers 400 with the
    message of [fromZodError], which is built from the issues. *)
Definition post_settings (st : Storage.MemStorage) (b : Schema.body)
    : Storage.MemStorage * response :=
  match Schema.parse b with
  | Schema.Parsed s =>
      let '(st', updatedSettings) := Storage.updateSettings st s in
      (st', {| status := 200; json := SettingsJson updatedSettings |})
  | Schema.ZodError issues =>
      (st, {| status := 400; json := ValidationMessage issues |})
  end.

End Routes.

(** ** [loadModel] and the module-level [bodyPixModel]

    JavaScript runs one task at a time; an [async] function runs until its
    [await] and is resumed later.  A call of [loadModel] therefore takes
    part in two kinds of step: the call itself, which tests the cache and
    either returns it or calls [bodyPix.load] and suspends, and the
    settling of the awaited load, which resumes the call.  Model instances
    are named by the number of the [bodyPix.load] call that creates them. *)

Module ModelCache.

Inductive event : Type :=
  | Call                 (** some caller invokes [loadModel()] *)
  | Resolve (k : nat)    (** the promise of load number [k] fulfils *)
  | Reject (k : nat).    (** the promise of load number [k] rejects *)

Inductive completion : Type :=
  | ReturnedModel (instance : nat)
  | ThrewError.

Record state : Type := {
  bodyPixModel : option nat;        (** [let bodyPixModel = null] *)
  loads : nat;                      (** calls of [bodyPix.load] made so far *)
  awaiting : list nat;              (** loads in flight, each with its suspended call *)
  completed : list completion;      (** how the calls of [loadModel] ended, in order *)
}.

Definition initial : state :=
  {| bodyPixModel := None; loads := 0; awaiting := []; completed := [] |}.

Definition in_flight (k : nat) (st : state) : bool := bool_decide (k ∈ awaiting st).

Definition remove (k : nat) (l : list nat) : list nat :=
  filter (λ j, j ≠ k) l.

Definition step (st : state) (e : event) : state :=
  match e with
  | Call =>
      match bodyPixModel st with
      | None =>
          (* if (!bodyPixModel) { ... await bodyPix.load({...}) *)
          {| bodyPixModel := None; loads := S (loads st);
             awaiting := awaiting st ++ [loads st]; completed := completed st |}
      | Some m =>
          (* return bodyPixModel; *)
          {| bodyPixModel := Some m; loads := loads st; awaiting := awaiting st;
             completed := completed st ++ [ReturnedModel m] |}
      end
  | Resolve k =>
      if in_flight k st then
        (* bodyPixModel = <the loaded model>; return bodyPixModel; *)
        {| bodyPixModel := Some k; loads := loads st;
           awaiting := remove k (awaiting st);
           completed := completed st ++ [ReturnedModel k] |}
      else st
  | Reject k =>
      if in_flight k st then
        (* the await throws; the catch block rethrows *)
        {| bodyPixModel := bodyPixModel st; loads := loads st;
           awaiting := remove k (awaiting st);
           completed := completed st ++ [ThrewError] |}
      else st
  end.

Definition run (st : state) (es : list event) : state := foldl step st es.

Definition is_call (e : event) : bool :=
  match e with Call => true | _ => false end.

(** The number of invocations of [loadModel] among the events. *)
Definition calls (es : list event) : nat := length (List.filter is_call es).

End ModelCache.

(** ** Sample inputs *)

Module Samples.

(** The 5×5 mask whose only foreground pixel is at [x = 1], [y = 2]. *)
Definition dot5 : list Z :=
  [0; 0; 0; 0; 0;
   0; 0; 0; 0; 0;
   0; 1; 0; 0; 0;
   0; 0; 0; 0; 0;
   0; 0; 0; 0; 0]%Z.

(** A 2×1 image: an opaque red pixel and an opaque blue pixel. *)
Definition red_blue : Raster.t :=
  Raster.mk 2 1 [255; 0; 0; 255; 0; 0; 255; 255]%Z.

(** Its segmentation: the first pixel is background, the second the person. *)
Definition red_blue_labels : list Z := [0; 1]%Z.

(** A browser whose drawing primitives leave the target bitmap alone. *)
Definition still : Raster.browser :=
  {| Raster.blur_self := λ _ _ _ _ d, d;
     Raster.destination_in := λ _ _ d _, d;
     Raster.source_over := λ _ _ d _, d |}.

(** A browser whose blur pulls every byte halfway towards grey level 130. *)
Definition hazy : Raster.browser :=
  {| Raster.blur_self := λ _ _ _ _ d, (λ v, (v + 130) / 2)%Z <$> d;
     Raster.destination_in := λ _ _ d _, d;
     Raster.source_over := λ _ _ d _, d |}.

(** A browser that composites as the Canvas 2D rules say for
    ['destination-in']: the colour of the target is kept and its alpha is
    scaled by the alpha of the source. *)
Definition porter_duff : Raster.browser :=
  {| Raster.blur_self := λ _ _ _ _ d, d;
     Raster.destination_in := λ _ _ d src,
       imap (λ j v, if (j `mod` 4 =? 3)%nat
                    then (v * default 0 (src !! j) / 255)%Z else v) d;
     Raster.source_over := λ _ _ d _, d |}.

Definition all_contexts : Pipeline.contexts :=
  {| Pipeline.ctx := true; Pipeline.maskCtx := true; Pipeline.tempCtx := true |}.

(** [{ model: "u2net", alphaMatting: false, foregroundThreshold: t,
      backgroundThreshold: 50 }] *)
Definition settings_body (t : Q) : Schema.body :=
  Schema.BodyObject
    (<["model" := Schema.JStr "u2net"]>
       (<["alphaMatting" := Schema.JBool false]>
          (<["foregroundThreshold" := Schema.JNum t]>
             (<["backgroundThreshold" := Schema.JNum 50]> ∅)))).

End Samples.

(** * Properties *)

(** ** Loops that mark array cells *)

Module JsFacts.
Import Js.

(** A nested pair of loops visits the cells of the flattened index list. *)
Lemma foldl_nested {S : Type} (f : nat → S → S) (g : nat → nat → nat)
    (xs ys : list nat) (s : S) :
  foldl (λ acc y, foldl (λ acc x, f (g y x) acc) acc xs) s ys =
  foldl (λ acc i, f i acc) s (ys ≫= λ y, g y <$> xs).
Proof.
  revert s. induction ys as [|y ys IH]; intros s; simpl; [done|].
  rewrite foldl_app, foldl_fmap. apply IH.
Qed.

Lemma mark_length c v idxs l : length (mark c v idxs l) = length l.
Proof.
  revert l. induction idxs as [|i idxs IH]; intros l; simpl; [done|].
  unfold mark in *. simpl. rewrite IH. destruct (c i); [apply length_insert|done].
Qed.

Lemma mark_hit c v idxs l j :
  j ∈ idxs → c j = true → j < length l → mark c v idxs l !! j = Some v.
Proof.
  revert l. induction idxs as [|i idxs IH]; intros l Hin Hc Hlt.
  - by apply elem_of_nil in Hin.
  - unfold mark in *. simpl.
    destruct (decide (j ∈ idxs)) as [Hj|Hj].
    + apply IH; [done|done|]. destruct (c i); [by rewrite length_insert|done].
    + apply elem_of_cons in Hin as [->|Hin]; [|done].
      rewrite Hc. clear IH Hc.
      assert (Hl : <[i:=v]> l !! i = Some v) by by apply list_lookup_insert_eq.
      revert Hl Hj. generalize (<[i:=v]> l). clear.
      induction idxs as [|k idxs IH]; intros l Hl Hj; simpl; [done|].
      apply not_elem_of_cons in Hj as [Hne Hj].
      apply IH; [|done]. destruct (c k); [|done].
      by rewrite list_lookup_insert_ne.
Qed.

Lemma mark_miss c v idxs l j :
  j ∉ idxs ∨ c j = false → mark c v idxs l !! j = l !! j.
Proof.
  revert l. induction idxs as [|i idxs IH]; intros l Hj; simpl; [done|].
  unfold mark in *. simpl. rewrite IH.
  - destruct (c i) eqn:Hci; [|done].
    apply list_lookup_insert_ne. intros ->.
    destruct Hj as [Hj|Hj]; [|congruence]. apply Hj. by left.
  - destruct Hj as [Hj|Hj]; [left|by right].
    intros Hin. apply Hj. by right.
Qed.

Lemma mark_idempotent c v idxs l :
  mark c v idxs (mark c v idxs l) = mark c v idxs l.
Proof.
  apply list_eq. intros j.
  destruct (decide (j ∈ idxs)) as [Hin|Hin]; [|by rewrite mark_miss; [|left]].
  destruct (c j) eqn:Hc; [|by rewrite mark_miss; [|right]].
  destruct (decide (j < length l)) as [Hlt|Hge].
  - rewrite !mark_hit; rewrite ?mark_length; done.
  - rewrite !(proj2 (lookup_ge_None _ _)); rewrite ?mark_length; [done|lia..].
Qed.

(** A loop whose body ignores its counter iterates the body. *)
Lemma for_range_const {S : Type} (n : nat) (f : S → S) (s : S) :
  for_range 0 n (λ _ acc, f acc) s = Nat.iter n f s.
Proof.
  unfold for_range. rewrite Nat.sub_0_r. generalize 0.
  revert s. induction n as [|n IH]; intros s lo; simpl; [done|].
  rewrite IH. clear. induction n as [|n IH]; simpl; [done|]. by rewrite IH.
Qed.

Lemma iter_idempotent {S : Type} (f : S → S) (s : S) (n : nat) :
  (∀ x, f (f x) = f x) → 1 ≤ n → Nat.iter n f s = f s.
Proof.
  intros Hf Hn. destruct n as [|n]; [lia|]. clear Hn.
  induction n as [|n IH]; simpl in *; [done|]. by rewrite IH, Hf.
Qed.

End JsFacts.

(** ** Neighbour-expansion dilation *)

Module DilationFacts.
Import Js JsFacts Dilation.

Lemma sweep_mark mask width height nm :
  sweep mask width height nm =
  mark (expands mask width) 1%Z (interior width height) nm.
Proof.
  unfold sweep, for_range, mark, interior.
  by rewrite (foldl_nested (λ i acc, if expands mask width i then <[i:=1%Z]> acc else acc)
                (λ y x, y * width + x)).
Qed.

Lemma sweep_idempotent mask width height nm :
  sweep mask width height (sweep mask width height nm) = sweep mask width height nm.
Proof. rewrite !sweep_mark. apply mark_idempotent. Qed.

Lemma refineMask_iter mask width height n :
  refineMask mask width height n = Nat.iter n (sweep mask width height) mask.
Proof. unfold refineMask. apply for_range_const. Qed.

Lemma refineMask_zero mask width height : refineMask mask width height 0 = mask.
Proof. by rewrite refineMask_iter. Qed.

Lemma refineMask_pos mask width height n :
  1 ≤ n →
  refineMask mask width height n =
  mark (expands mask width) 1%Z (interior width height) mask.
Proof.
  intros Hn. rewrite refineMask_iter, iter_idempotent; [apply sweep_mark| |done].
  intros x. apply sweep_idempotent.
Qed.

Lemma refineMask_length mask width height n :
  length (refineMask mask width height n) = length mask.
Proof.
  destruct n as [|n]; [by rewrite refineMask_zero|].
  rewrite refineMask_pos by lia. apply mark_length.
Qed.

Lemma elem_of_interior width height i :
  i ∈ interior width height ↔
  ∃ y x, i = y * width + x ∧ 1 ≤ y < height - 1 ∧ 1 ≤ x < width - 1.
Proof.
  unfold interior. rewrite list_elem_of_bind. split.
  - intros (y & Hx & Hy). apply list_elem_of_fmap in Hx as (x & -> & Hx).
    apply elem_of_seq in Hx, Hy. exists y, x. lia.
  - intros (y & x & -> & Hy & Hx). exists y. split.
    + apply list_elem_of_fmap. exists x. split; [done|]. apply elem_of_seq. lia.
    + apply elem_of_seq. lia.
Qed.

Lemma expands_zero mask width i : expands mask width i = true → mask !! i = Some 0%Z.
Proof.
  unfold expands. intros H. apply andb_prop in H as [H _].
  unfold strict_eq in H. destruct (mask !! i) as [v|]; [|done].
  apply Z.eqb_eq in H. by subst.
Qed.

(** Every cell of the result either is the input cell or is a [0] turned
    into a [1]. *)
Lemma refineMask_cell mask width height n i :
  refineMask mask width height n !! i = mask !! i ∨
  (mask !! i = Some 0%Z ∧ refineMask mask width height n !! i = Some 1%Z).
Proof.
  destruct n as [|n]; [left; by rewrite refineMask_zero|].
  rewrite refineMask_pos by lia.
  destruct (decide (i ∈ interior width height)) as [Hin|Hin];
    [|left; apply mark_miss; by left].
  destruct (expands mask width i) eqn:Hc; [|left; apply mark_miss; by right].
  right. pose proof (expands_zero _ _ _ Hc) as Hz. split; [done|].
  apply mark_hit; [done..|]. by apply lookup_lt_Some in Hz.
Qed.

Lemma count_fg_mono (l k : list Z) :
  Forall2 (λ a b, is_fg a = true → is_fg b = true) l k → count_fg l ≤ count_fg k.
Proof.
  unfold count_fg. induction 1 as [|a b l k Hab _ IH]; [done|].
  rewrite !filter_cons. destruct (decide (is_fg a = true)) as [Ha|Ha].
  - rewrite decide_True by auto. simpl. lia.
  - destruct (decide (is_fg b = true)); simpl; lia.
Qed.

(** The border test: a cell of the first or last row or column is not
    visited by the loops. *)
Lemma border_not_interior width height x y :
  x < width → x = 0 ∨ x = width - 1 ∨ y = 0 ∨ y = height - 1 →
  y * width + x ∉ interior width height.
Proof.
  intros Hx Hb Hin. apply elem_of_interior in Hin as (y' & x' & Heq & Hy' & Hx').
  assert (y = y') by nia. subst y'. assert (x = x') by lia. subst x'. lia.
Qed.

End DilationFacts.

Module DilationClaims.
Import Js JsFacts Dilation DilationFacts Samples.

(** C4.  Dilation only grows the foreground: for every mask, width, height and
    iteration count, [refineMask] returns a mask with at least as many
    foreground pixels as its input, and every pixel that is foreground in the
    input keeps its value in the output. *)
Theorem refineMask_monotone (mask : list Z) (width height n : nat) :
  count_fg mask ≤ count_fg (refineMask mask width height n) ∧
  (∀ i v, mask !! i = Some v → is_fg v = true →
          refineMask mask width height n !! i = Some v).
Proof.
  assert (Hkeep : ∀ i v, mask !! i = Some v → is_fg v = true →
                         refineMask mask width height n !! i = Some v).
  { intros i v Hv Hfg.
    destruct (refineMask_cell mask width height n i) as [->|[Hz _]]; [done|].
    rewrite Hv in Hz. by injection Hz as ->. }
  split; [|done].
  apply count_fg_mono, Forall2_same_length_lookup.
  split; [by rewrite refineMask_length|].
  intros i a b Ha Hb Hfg. rewrite (Hkeep i a Ha Hfg) in Hb. by injection Hb as <-.
Qed.

(** C5, as stated, fails.  On [dot5] with two iterations, the background
    pixel [(0, 2)] is 4-adjacent to the foreground pixel and the background
    pixel [(3, 2)] is at 4-connected distance two from it, yet both are still
    background in the result. *)
Lemma refineMask_distance_counterexample :
  dot5 !! (2 * 5 + 1) = Some 1%Z ∧
  dot5 !! (2 * 5 + 0) = Some 0%Z ∧
  dot5 !! (2 * 5 + 3) = Some 0%Z ∧
  refineMask dot5 5 5 2 !! (2 * 5 + 0) = Some 0%Z ∧
  refineMask dot5 5 5 2 !! (2 * 5 + 3) = Some 0%Z.
Proof. repeat split; vm_compute; reflexivity. Qed.

(** C5, amended.  With at least one iteration, [refineMask] turns into
    foreground every interior pixel ([1 ≤ x < width - 1],
    [1 ≤ y < height - 1]) that is [0] in the input mask and has a 4-connected
    neighbour equal to [1] in the input mask. *)
Theorem refineMask_expands_interior (mask : list Z) (width height n x y : nat)
    (Hn : 1 ≤ n) (Hx : 1 ≤ x < width - 1) (Hy : 1 ≤ y < height - 1)
    (Hbg : mask !! (y * width + x) = Some 0%Z)
    (Hadj : mask !! (y * width + x - 1) = Some 1%Z ∨
            mask !! (y * width + x + 1) = Some 1%Z ∨
            mask !! (y * width + x - width) = Some 1%Z ∨
            mask !! (y * width + x + width) = Some 1%Z) :
  refineMask mask width height n !! (y * width + x) = Some 1%Z.
Proof.
  rewrite refineMask_pos by done. apply mark_hit.
  - apply elem_of_interior. by exists y, x.
  - unfold expands. rewrite Hbg. simpl.
    destruct Hadj as [H|[H|[H|H]]]; rewrite H; simpl;
      rewrite ?orb_true_r; reflexivity.
  - by apply lookup_lt_Some in Hbg.
Qed.

Lemma refineMask_expands_interior_witness :
  refineMask dot5 5 5 2 !! (2 * 5 + 2) = Some 1%Z.
Proof.
  apply (refineMask_expands_interior dot5 5 5 2 2 2).
  - lia.
  - simpl; lia.
  - simpl; lia.
  - reflexivity.
  - left. reflexivity.
Defined.

(** C6.  For every mask, width, height and iteration count [n ≥ 1],
    [refineMask] with [n] iterations returns the same array as with one
    iteration, and the pixels of the first and last row and column are the
    pixels of the input. *)
Theorem refineMask_one_iteration (mask : list Z) (width height n : nat) (Hn : 1 ≤ n) :
  refineMask mask width height n = refineMask mask width height 1 ∧
  (∀ x y, x < width → y < height →
          x = 0 ∨ x = width - 1 ∨ y = 0 ∨ y = height - 1 →
          refineMask mask width height n !! (y * width + x) = mask !! (y * width + x)).
Proof.
  split.
  - rewrite !refineMask_pos; [done|lia|done].
  - intros x y Hx Hy Hb. rewrite refineMask_pos by done.
    apply mark_miss. left. by apply border_not_interior.
Qed.

Lemma refineMask_one_iteration_witness :
  refineMask dot5 5 5 2 = refineMask dot5 5 5 1 ∧
  (∀ x y, x < 5 → y < 5 → x = 0 ∨ x = 5 - 1 ∨ y = 0 ∨ y = 5 - 1 →
          refineMask dot5 5 5 2 !! (y * 5 + x) = dot5 !! (y * 5 + x)).
Proof. apply (refineMask_one_iteration dot5 5 5 2). lia. Defined.

End DilationClaims.

(** ** Loops over the pixels of an RGBA array *)

Module PixelLoop.
Import Js.

Section Local.
(** A loop body that, at pixel [k], writes only the four cells of that
    pixel and never resizes the array. *)
Variable body : nat → list Z → list Z.
Hypothesis body_length : ∀ k d, length (body k d) = length d.
Hypothesis body_local : ∀ k d j, j < 4 * k ∨ 4 * k + 4 ≤ j → body k d !! j = d !! j.

Lemma upto_S n d : upto body (S n) d = body n (upto body n d).
Proof. unfold upto. by rewrite seq_S, foldl_app. Qed.

Lemma upto_length n d : length (upto body n d) = length d.
Proof. induction n as [|n IH]; [done|]. by rewrite upto_S, body_length. Qed.

(** Cells of pixels not yet visited are still those of the start. *)
Lemma upto_ahead n d j : 4 * n ≤ j → upto body n d !! j = d !! j.
Proof.
  induction n as [|n IH]; intros Hj; [done|].
  rewrite upto_S, body_local by lia. apply IH. lia.
Qed.

(** A cell of pixel [k] holds what the body wrote there when it ran at
    [k], on an array that agreed with the start from pixel [k] on. *)
Lemma upto_at n d k j :
  k < n → 4 * k ≤ j < 4 * k + 4 →
  ∃ d', length d' = length d ∧ (∀ i, 4 * k ≤ i → d' !! i = d !! i) ∧
        upto body n d !! j = body k d' !! j.
Proof.
  induction n as [|n IH]; intros Hk Hj; [lia|].
  rewrite upto_S. destruct (decide (k = n)) as [->|Hne].
  - exists (upto body n d). split; [apply upto_length|]. split; [|done].
    intros i Hi. by apply upto_ahead.
  - destruct IH as (d' & Hlen & Hagree & Heq); [lia|done|].
    exists d'. split; [done|]. split; [done|].
    rewrite body_local by lia. done.
Qed.
End Local.

End PixelLoop.

(** ** The mask builder, the cut-out loop and the re-threshold loops *)

Module MaskFacts.
Import Js PixelLoop Raster Mask Pipeline.

(** Reads of an array after constant writes at known offsets. *)
Ltac read_insert :=
  repeat first
    [ rewrite list_lookup_insert_ne by lia
    | rewrite list_lookup_insert_eq by (rewrite ?length_insert; lia) ].

Lemma for_range_upto {S : Type} (n : nat) (body : nat → S → S) (s : S) :
  for_range 0 n body s = upto body n s.
Proof. unfold for_range, upto. by rewrite Nat.sub_0_r. Qed.

Lemma for_step4_upto {S : Type} (n : nat) (body : nat → S → S) (s : S) :
  for_step4 n body s = upto (λ k, body (4 * k)) ((n + 3) / 4) s.
Proof. done. Qed.

(** *** [Mask.fill] *)

Lemma fill_body_length labels k d : length (fill_body labels k d) = length d.
Proof. unfold fill_body. by rewrite !length_insert. Qed.

Lemma fill_body_local labels k d j :
  j < 4 * k ∨ 4 * k + 4 ≤ j → fill_body labels k d !! j = d !! j.
Proof. intros Hj. unfold fill_body. by read_insert. Qed.

Lemma fill_length labels d : length (fill labels d) = length d.
Proof.
  unfold fill. rewrite for_range_upto.
  apply (upto_length (fill_body labels)), fill_body_length.
Qed.

Lemma fill_at labels d i c :
  i < length labels → i * 4 + 3 < length d → c < 4 →
  fill labels d !! (i * 4 + c) =
  Some (if decide (c = 3) then 255%Z
        else if falsy (labels !! i) then 0%Z else 255%Z).
Proof.
  intros Hi Hd Hc. unfold fill. rewrite for_range_upto.
  destruct (upto_at (fill_body labels) (fill_body_length labels)
              (fill_body_local labels) (length labels) d i (i * 4 + c))
    as (d' & Hlen & _ & ->); [done|lia|].
  unfold fill_body.
  assert (c = 0 ∨ c = 1 ∨ c = 2 ∨ c = 3) as [-> | [-> | [-> | ->]]] by lia;
    rewrite ?Nat.add_0_r; simpl; by read_insert.
Qed.

(** *** [Pipeline.cutout] *)

Lemma cutout_body_length mask k d : length (cutout_body mask k d) = length d.
Proof. unfold cutout_body. destruct (falsy _); by rewrite ?length_insert. Qed.

Lemma cutout_body_local mask k d j :
  j < 4 * k ∨ 4 * k + 4 ≤ j → cutout_body mask k d !! j = d !! j.
Proof. intros Hj. unfold cutout_body. destruct (falsy _); by read_insert. Qed.

Lemma cutout_length mask px : length (cutout mask px) = length px.
Proof.
  unfold cutout. rewrite for_range_upto.
  apply (upto_length (cutout_body mask)), cutout_body_length.
Qed.

Lemma cutout_alpha_zero mask px i :
  mask !! i = Some 0%Z → i * 4 + 3 < length px →
  cutout mask px !! (i * 4 + 3) = Some 0%Z.
Proof.
  intros Hm Hpx. unfold cutout. rewrite for_range_upto.
  destruct (upto_at (cutout_body mask) (cutout_body_length mask)
              (cutout_body_local mask) (length mask) px i (i * 4 + 3))
    as (d' & Hlen & _ & ->); [by apply lookup_lt_Some in Hm|lia|].
  unfold cutout_body. rewrite Hm. simpl. by read_insert.
Qed.

(** *** The re-threshold loops *)

(** A loop that steps by four over [len] cells reaches every pixel that has
    a cell in the array. *)
Lemma pixel_visited (len k c : nat) : 4 * k + c < len → k < (len + 3) / 4.
Proof.
  intros H. pose proof (Nat.div_mod_eq (len + 3) 4) as Hdm.
  pose proof (Nat.mod_upper_bound (len + 3) 4). lia.
Qed.

Lemma avg_body_length k d : length (avg_body (4 * k) d) = length d.
Proof. unfold avg_body. by rewrite !length_insert. Qed.

Lemma avg_body_local k d j :
  j < 4 * k ∨ 4 * k + 4 ≤ j → avg_body (4 * k) d !! j = d !! j.
Proof. intros Hj. unfold avg_body. by read_insert. Qed.

Lemma any_body_length k d : length (any_body (4 * k) d) = length d.
Proof. unfold any_body. destruct (_ || _); by rewrite !length_insert. Qed.

Lemma any_body_local k d j :
  j < 4 * k ∨ 4 * k + 4 ≤ j → any_body (4 * k) d !! j = d !! j.
Proof. intros Hj. unfold any_body. destruct (_ || _); by read_insert. Qed.

Lemma rethreshold_avg_length d : length (rethreshold_avg d) = length d.
Proof.
  unfold rethreshold_avg. rewrite for_step4_upto.
  apply (upto_length (λ k, avg_body (4 * k))), avg_body_length.
Qed.

Lemma rethreshold_any_length d : length (rethreshold_any d) = length d.
Proof.
  unfold rethreshold_any. rewrite for_step4_upto.
  apply (upto_length (λ k, any_body (4 * k))), any_body_length.
Qed.

(** A colour cell of pixel [k] after the average re-threshold. *)
Lemma rethreshold_avg_at d k c :
  4 * k + c < length d → c < 3 →
  rethreshold_avg d !! (4 * k + c) =
  Some (if avg_gt_128 (d !! (4 * k)) (d !! (4 * k + 1)) (d !! (4 * k + 2))
        then 255%Z else 0%Z).
Proof.
  intros Hd Hc. unfold rethreshold_avg. rewrite for_step4_upto.
  destruct (upto_at (λ k, avg_body (4 * k)) avg_body_length avg_body_local
              ((length d + 3) / 4) d k (4 * k + c))
    as (d' & Hlen & Hagree & ->).
  { by eapply pixel_visited. }
  { lia. }
  unfold avg_body. rewrite !Hagree by lia.
  assert (c = 0 ∨ c = 1 ∨ c = 2) as [-> | [-> | ->]] by lia;
    rewrite ?Nat.add_0_r; by read_insert.
Qed.

(** A colour cell of pixel [k] after the any-channel re-threshold. *)
Lemma rethreshold_any_at d k c :
  4 * k + c < length d → c < 3 →
  rethreshold_any d !! (4 * k + c) =
  Some (if gt (d !! (4 * k)) 128 || gt (d !! (4 * k + 1)) 128 ||
           gt (d !! (4 * k + 2)) 128
        then 255%Z else 0%Z).
Proof.
  intros Hd Hc. unfold rethreshold_any. rewrite for_step4_upto.
  destruct (upto_at (λ k, any_body (4 * k)) any_body_length any_body_local
              ((length d + 3) / 4) d k (4 * k + c))
    as (d' & Hlen & Hagree & ->).
  { by eapply pixel_visited. }
  { lia. }
  unfold any_body. rewrite !Hagree by lia.
  destruct (_ || _);
    (assert (c = 0 ∨ c = 1 ∨ c = 2) as [-> | [-> | ->]] by lia);
    rewrite ?Nat.add_0_r; by read_insert.
Qed.

(** The alpha cells are left as the blur produced them. *)
Lemma rethreshold_avg_alpha d k :
  rethreshold_avg d !! (4 * k + 3) = d !! (4 * k + 3).
Proof.
  destruct (decide (4 * k + 3 < length d)) as [Hlt|Hge].
  - unfold rethreshold_avg. rewrite for_step4_upto.
    destruct (upto_at (λ k, avg_body (4 * k)) avg_body_length avg_body_local
                ((length d + 3) / 4) d k (4 * k + 3))
      as (d' & Hlen & Hagree & ->).
    { by eapply pixel_visited. }
    { lia. }
    unfold avg_body. read_insert. apply Hagree. lia.
  - rewrite !(proj2 (lookup_ge_None _ _)); rewrite ?rethreshold_avg_length; [done|lia..].
Qed.

Lemma rethreshold_any_alpha d k :
  rethreshold_any d !! (4 * k + 3) = d !! (4 * k + 3).
Proof.
  destruct (decide (4 * k + 3 < length d)) as [Hlt|Hge].
  - unfold rethreshold_any. rewrite for_step4_upto.
    destruct (upto_at (λ k, any_body (4 * k)) any_body_length any_body_local
                ((length d + 3) / 4) d k (4 * k + 3))
      as (d' & Hlen & Hagree & ->).
    { by eapply pixel_visited. }
    { lia. }
    unfold any_body. destruct (_ || _); read_insert; apply Hagree; lia.
  - rewrite !(proj2 (lookup_ge_None _ _)); rewrite ?rethreshold_any_length; [done|lia..].
Qed.

End MaskFacts.

Module PipelineClaims.
Import Js Raster Mask Pipeline MaskFacts DilationFacts Samples.

(** C2.  The mask builder is a function of the labels and the dimensions
    alone.  For labels that cover the image, the mask it produces has
    [4 * width * height] bytes, and at every pixel the three colour channels
    are 255 when the label is foreground and 0 when it is not, with the
    alpha channel 255. *)
Theorem mask_builder_binary (labels : list Z) (w h : nat)
    (Hlen : length labels = w * h) :
  length (Mask.build labels w h) = 4 * (w * h) ∧
  (∀ i l, labels !! i = Some l →
     let v := if Dilation.is_fg l then 255%Z else 0%Z in
     Mask.build labels w h !! (i * 4) = Some v ∧
     Mask.build labels w h !! (i * 4 + 1) = Some v ∧
     Mask.build labels w h !! (i * 4 + 2) = Some v ∧
     Mask.build labels w h !! (i * 4 + 3) = Some 255%Z).
Proof.
  unfold Mask.build, Raster.create. cbn [data].
  split; [by rewrite fill_length, length_replicate|].
  intros i l Hl. cbv zeta. set (v := if Dilation.is_fg l then 255%Z else 0%Z).
  pose proof (lookup_lt_Some _ _ _ Hl) as Hi.
  assert (Hval : (if falsy (labels !! i) then 0%Z else 255%Z) = v).
  { rewrite Hl. unfold falsy, v, Dilation.is_fg. by destruct (l =? 0)%Z. }
  assert (Hd : i * 4 + 3 < length (replicate (4 * (w * h)) 0%Z))
    by (rewrite length_replicate; lia).
  rewrite <- (Nat.add_0_r (i * 4)) at 1.
  rewrite !fill_at by (done || lia). simpl. by rewrite Hval.
Qed.

Lemma mask_builder_binary_witness :
  length (Mask.build red_blue_labels 2 1) = 4 * (2 * 1) ∧
  (∀ i l, red_blue_labels !! i = Some l →
     let v := if Dilation.is_fg l then 255%Z else 0%Z in
     Mask.build red_blue_labels 2 1 !! (i * 4) = Some v ∧
     Mask.build red_blue_labels 2 1 !! (i * 4 + 1) = Some v ∧
     Mask.build red_blue_labels 2 1 !! (i * 4 + 2) = Some v ∧
     Mask.build red_blue_labels 2 1 !! (i * 4 + 3) = Some 255%Z).
Proof. apply (mask_builder_binary red_blue_labels 2 1). reflexivity. Defined.

(** C1.  With a transparent backdrop and no feathering, for an image with
    its full pixel data and labels of matching dimensions, both direct-alpha
    pipelines return a canvas in which every pixel whose mask value is 0 has
    alpha 0.  In the plain variant the mask is the segmentation; in the
    variant with [refineEdges] it is the mask the cut-out loop reads. *)
Theorem background_alpha_zero (B : browser) (K : contexts) (img : Raster.t)
    (segmentation : list Z) (s1 : Simple.settings) (s2 : Refined.settings)
    (Himg : length (data img) = 4 * (width img * height img))
    (Hseg : length segmentation = width img * height img)
    (Hctx : ctx K = true)
    (Hblur : positive (Refined.blurEffect s2) = false) :
  (∃ c, Simple.removeBackground K img segmentation s1 = Returned c ∧
        ∀ i, segmentation !! i = Some 0%Z → data c !! (i * 4 + 3) = Some 0%Z) ∧
  (∃ c, Refined.removeBackground B K img segmentation s2 = Returned c ∧
        ∀ i, Refined.effective_mask img segmentation s2 !! i = Some 0%Z →
             data c !! (i * 4 + 3) = Some 0%Z).
Proof.
  split.
  - unfold Simple.removeBackground. rewrite Hctx. simpl.
    eexists. split; [done|]. simpl. intros i Hi.
    apply cutout_alpha_zero; [done|]. apply lookup_lt_Some in Hi. lia.
  - unfold Refined.removeBackground. rewrite Hctx, Hblur. simpl.
    eexists. split; [done|]. simpl. intros i Hi.
    apply cutout_alpha_zero; [done|]. apply lookup_lt_Some in Hi.
    assert (length (Refined.effective_mask img segmentation s2) = length segmentation).
    { unfold Refined.effective_mask, Dilation.refineMask_default.
      destruct (truthy _); [apply refineMask_length|done]. }
    lia.
Qed.

Lemma background_alpha_zero_witness :
  (∃ c, Simple.removeBackground all_contexts red_blue red_blue_labels
          (Simple.Build_settings None None None) = Returned c ∧
        ∀ i, red_blue_labels !! i = Some 0%Z → data c !! (i * 4 + 3) = Some 0%Z) ∧
  (∃ c, Refined.removeBackground still all_contexts red_blue red_blue_labels
          (Refined.Build_settings None (Some 0%Q) (Some true)) = Returned c ∧
        ∀ i, Refined.effective_mask red_blue red_blue_labels
               (Refined.Build_settings None (Some 0%Q) (Some true)) !! i = Some 0%Z →
             data c !! (i * 4 + 3) = Some 0%Z).
Proof.
  apply (background_alpha_zero still all_contexts red_blue red_blue_labels);
    reflexivity.
Defined.

(** C3.  Whenever a pipeline returns a canvas, that canvas has the width and
    the height of the source image; and every pipeline does return one when
    its drawing contexts are available. *)
Theorem result_dimensions (B : browser) (K : contexts) (img : Raster.t)
    (segmentation : list Z) (s1 : Simple.settings) (s2 : Refined.settings)
    (o3 : Remover.options) (s4 : Improved.settings) :
  (∀ c, Simple.removeBackground K img segmentation s1 = Returned c ∨
        Refined.removeBackground B K img segmentation s2 = Returned c ∨
        Remover.removeBackground B K img segmentation o3 = Returned c ∨
        Improved.removeBackground B K img segmentation s4 = Returned c →
        width c = width img ∧ height c = height img) ∧
  (ctx K = true → maskCtx K = true →
   ∃ c1 c2 c3 c4,
     Simple.removeBackground K img segmentation s1 = Returned c1 ∧
     Refined.removeBackground B K img segmentation s2 = Returned c2 ∧
     Remover.removeBackground B K img segmentation o3 = Returned c3 ∧
     Improved.removeBackground B K img segmentation s4 = Returned c4).
Proof.
  split.
  - intros c [H|[H|[H|H]]]; revert H.
    + unfold Simple.removeBackground. destruct (ctx K); simpl; [|done].
      by intros [= <-].
    + unfold Refined.removeBackground. destruct (ctx K); simpl; [|done].
      destruct (positive _); by intros [= <-].
    + unfold Remover.removeBackground.
      destruct (ctx K); simpl; [|done]. destruct (maskCtx K); simpl; [|done].
      destruct (positive (Remover.edgeBlurAmount o3)); by intros [= <-].
    + unfold Improved.removeBackground.
      destruct (ctx K); simpl; [|done]. destruct (maskCtx K); simpl; [|done].
      destruct (negb (Qle_bool (nullish (Improved.edgeBlurAmount s4) 1) 0));
        destruct (truthy (Improved.refineEdges s4)); destruct (tempCtx K);
        by intros [= <-].
  - intros Hctx Hmask.
    unfold Simple.removeBackground, Refined.removeBackground,
      Remover.removeBackground, Improved.removeBackground.
    rewrite Hctx, Hmask. simpl. by repeat eexists.
Qed.

Lemma result_dimensions_witness :
  ∃ c, Simple.removeBackground all_contexts red_blue red_blue_labels
         (Simple.Build_settings None None None) = Returned c ∧
       width c = 2 ∧ height c = 1.
Proof.
  destruct (result_dimensions still all_contexts red_blue red_blue_labels
              (Simple.Build_settings None None None)
              (Refined.Build_settings None None None)
              (Remover.Build_options None None None)
              (Improved.Build_settings None None None None)) as [Hdim Hret].
  destruct (Hret eq_refl eq_refl) as (c1 & _ & _ & _ & H1 & _).
  exists c1. split; [exact H1|]. apply (Hdim c1). left. exact H1.
Defined.

(** The two direct-alpha pipelines on the sample image: the background pixel
    is cleared and the person keeps its bytes. *)
Example simple_red_blue :
  Simple.removeBackground all_contexts red_blue red_blue_labels
    (Simple.Build_settings None None None) =
  Returned (Raster.mk 2 1 [255; 0; 0; 0; 0; 0; 255; 255]%Z).
Proof. reflexivity. Qed.

(** The mask canvas of backgroundRemover.ts is opaque at every pixel (C2), so
    under a browser that scales alpha by the alpha of the source,
    ['destination-in'] with that mask keeps the background pixel opaque. *)
Example remover_red_blue_opaque :
  Remover.removeBackground porter_duff all_contexts red_blue red_blue_labels
    (Remover.Build_options None None None) =
  Returned (Raster.mk 2 1 [255; 0; 0; 255; 0; 0; 255; 255]%Z).
Proof. vm_compute. reflexivity. Qed.

End PipelineClaims.

Module RefinementClaims.
Import Js Raster Mask Pipeline MaskFacts Samples.

Lemma positive_zero (q : Q) : q == 0 → positive (Some q) = false.
Proof.
  intros Hq. unfold positive. apply negb_false_iff, Qle_bool_iff.
  rewrite Hq. apply Qle_refl.
Qed.

(** C7.  With edge-dilation strength 0 and blur amount 0 both refinement
    steps are skipped: the mask canvas is the one the mask builder made, and
    the canvas returned is the unrefined composite.  The same holds for the
    blur effect of the variant that clears alpha directly. *)
Theorem zero_strength_noop (B : browser) (K : contexts) (img : Raster.t)
    (segmentation : list Z) (t : option Q) (d e : Q) (s : Refined.settings)
    (Hctx : ctx K = true) (Hmask : maskCtx K = true)
    (Hd : d == 0) (He : e == 0)
    (Hs : ∃ q, Refined.blurEffect s = Some q ∧ q == 0) :
  let o := {| Remover.foregroundThreshold := t;
              Remover.edgeDilation := Some d;
              Remover.edgeBlurAmount := Some e |} in
  Remover.mask_stage B img segmentation o = Unrefined.mask img segmentation ∧
  Remover.removeBackground B K img segmentation o =
    Returned (Unrefined.composite B img segmentation) ∧
  Refined.removeBackground B K img segmentation s =
    Returned (Unrefined.cleared img (Refined.effective_mask img segmentation s)).
Proof.
  cbv zeta. destruct Hs as (q & Hq & Hq0).
  assert (Hstage : Remover.mask_stage B img segmentation
            {| Remover.foregroundThreshold := t; Remover.edgeDilation := Some d;
               Remover.edgeBlurAmount := Some e |} = Unrefined.mask img segmentation).
  { unfold Remover.mask_stage. cbn [Remover.edgeDilation].
    by rewrite (positive_zero d Hd). }
  split; [done|]. split.
  - unfold Remover.removeBackground. rewrite Hctx, Hmask, Hstage.
    cbn [Remover.edgeBlurAmount negb]. by rewrite (positive_zero e He).
  - unfold Refined.removeBackground. rewrite Hctx, Hq. cbn [negb].
    by rewrite (positive_zero q Hq0).
Qed.

Lemma zero_strength_noop_witness :
  Remover.removeBackground hazy all_contexts red_blue red_blue_labels
    {| Remover.foregroundThreshold := None;
       Remover.edgeDilation := Some 0%Q;
       Remover.edgeBlurAmount := Some 0%Q |} =
  Returned (Unrefined.composite hazy red_blue red_blue_labels).
Proof.
  apply (zero_strength_noop hazy all_contexts red_blue red_blue_labels None 0 0
           (Refined.Build_settings None (Some 0%Q) None)).
  - reflexivity.
  - reflexivity.
  - reflexivity.
  - reflexivity.
  - exists 0%Q. split; reflexivity.
Defined.

(** The step that follows the blur: the blurred mask read back, and the
    mask canvas after the re-threshold. *)
Lemma remover_mask_stage_dilated B img segmentation o :
  positive (Remover.edgeDilation o) = true →
  data (Remover.mask_stage B img segmentation o) =
  rethreshold_avg (data (blurSelf B (default 0%Q (Remover.edgeDilation o)) 1
                           (Unrefined.mask img segmentation))).
Proof. intros H. unfold Remover.mask_stage. by rewrite H. Qed.

Lemma improved_mask_stage_dilated B img canvas segmentation s :
  Qle_bool (nullish (Improved.edgeDilation s) 2) 0 = false →
  data (Improved.mask_stage B img canvas segmentation s) =
  rethreshold_any
    (data (blurSelf B (nullish (Improved.edgeDilation s) 2) 1
             (putImageData (Raster.create (width img) (height img))
                (Mask.fill segmentation
                   (data (Raster.create (width canvas) (height canvas))))))).
Proof. intros H. unfold Improved.mask_stage. by rewrite H. Qed.

Lemma colour_cell (j : nat) : j `mod` 4 ≠ 3 → ∃ k c, j = 4 * k + c ∧ c < 3.
Proof.
  intros Hj. exists (j / 4), (j `mod` 4).
  pose proof (Nat.div_mod_eq j 4). pose proof (Nat.mod_upper_bound j 4). lia.
Qed.

Lemma rethreshold_avg_binary d j v :
  j `mod` 4 ≠ 3 → rethreshold_avg d !! j = Some v → v = 0%Z ∨ v = 255%Z.
Proof.
  intros Hj Hv. destruct (colour_cell j Hj) as (k & c & -> & Hc).
  pose proof (lookup_lt_Some _ _ _ Hv) as Hlt. rewrite rethreshold_avg_length in Hlt.
  rewrite rethreshold_avg_at in Hv by done.
  destruct (avg_gt_128 _ _ _); injection Hv as <-; auto.
Qed.

Lemma rethreshold_any_binary d j v :
  j `mod` 4 ≠ 3 → rethreshold_any d !! j = Some v → v = 0%Z ∨ v = 255%Z.
Proof.
  intros Hj Hv. destruct (colour_cell j Hj) as (k & c & -> & Hc).
  pose proof (lookup_lt_Some _ _ _ Hv) as Hlt. rewrite rethreshold_any_length in Hlt.
  rewrite rethreshold_any_at in Hv by done.
  destruct (_ || _); injection Hv as <-; auto.
Qed.

(** C8.  After the blur, the dilation block re-thresholds every pixel of the
    mask, whatever the blur produced.  In the any-channel variant a pixel
    with a colour channel above 128 becomes 255 and any other pixel 0.  In
    backgroundRemover.ts the test is on the mean of the three channels,
    which for a grey pixel (the three channels equal, as in a mask) is the
    same test.  In both variants every colour byte of the refined mask is 0
    or 255. *)
Theorem rethreshold_binary (B : browser) (img canvas : Raster.t)
    (segmentation : list Z) (o : Remover.options) (s : Improved.settings)
    (Ho : positive (Remover.edgeDilation o) = true)
    (Hs : Qle_bool (nullish (Improved.edgeDilation s) 2) 0 = false) :
  let blurred_any :=
    data (blurSelf B (nullish (Improved.edgeDilation s) 2) 1
            (putImageData (Raster.create (width img) (height img))
               (Mask.fill segmentation
                  (data (Raster.create (width canvas) (height canvas)))))) in
  let blurred_avg :=
    data (blurSelf B (default 0%Q (Remover.edgeDilation o)) 1
            (Unrefined.mask img segmentation)) in
  let mask_any := data (Improved.mask_stage B img canvas segmentation s) in
  let mask_avg := data (Remover.mask_stage B img segmentation o) in
  (∀ k c r g b, c < 3 →
     blurred_any !! (4 * k) = Some r → blurred_any !! (4 * k + 1) = Some g →
     blurred_any !! (4 * k + 2) = Some b →
     mask_any !! (4 * k + c) =
       Some (if (128 <? r)%Z || (128 <? g)%Z || (128 <? b)%Z then 255%Z else 0%Z)) ∧
  (∀ k c g, c < 3 →
     blurred_avg !! (4 * k) = Some g → blurred_avg !! (4 * k + 1) = Some g →
     blurred_avg !! (4 * k + 2) = Some g →
     mask_avg !! (4 * k + c) = Some (if (128 <? g)%Z then 255%Z else 0%Z)) ∧
  (∀ k c r g b, c < 3 →
     blurred_avg !! (4 * k) = Some r → blurred_avg !! (4 * k + 1) = Some g →
     blurred_avg !! (4 * k + 2) = Some b →
     mask_avg !! (4 * k + c) = Some (if (384 <? r + g + b)%Z then 255%Z else 0%Z)) ∧
  (∀ j v, j `mod` 4 ≠ 3 → mask_any !! j = Some v → v = 0%Z ∨ v = 255%Z) ∧
  (∀ j v, j `mod` 4 ≠ 3 → mask_avg !! j = Some v → v = 0%Z ∨ v = 255%Z).
Proof.
  cbv zeta.
  rewrite (improved_mask_stage_dilated B img canvas segmentation s Hs).
  rewrite (remover_mask_stage_dilated B img segmentation o Ho).
  split; [|split; [|split; [|split]]].
  - intros k c r g b Hc Hr Hg Hb.
    rewrite rethreshold_any_at; [|apply lookup_lt_Some in Hb; lia|done].
    by rewrite Hr, Hg, Hb.
  - intros k c g Hc Hr Hg Hb.
    rewrite rethreshold_avg_at; [|apply lookup_lt_Some in Hb; lia|done].
    rewrite Hr, Hg, Hb. unfold avg_gt_128.
    destruct (Z.ltb_spec 384 (g + g + g)), (Z.ltb_spec 128 g); done || lia.
  - intros k c r g b Hc Hr Hg Hb.
    rewrite rethreshold_avg_at; [|apply lookup_lt_Some in Hb; lia|done].
    by rewrite Hr, Hg, Hb.
  - intros j v. apply rethreshold_any_binary.
  - intros j v. apply rethreshold_avg_binary.
Qed.

Lemma rethreshold_binary_witness :
  data (Improved.mask_stage hazy red_blue red_blue red_blue_labels
          (Improved.Build_settings None None None None)) !! (4 * 1 + 0) =
    Some 255%Z ∧
  data (Remover.mask_stage hazy red_blue red_blue_labels
          (Remover.Build_options None (Some 2%Q) None)) !! (4 * 0 + 2) =
    Some 0%Z.
Proof.
  destruct (rethreshold_binary hazy red_blue red_blue red_blue_labels
              (Remover.Build_options None (Some 2%Q) None)
              (Improved.Build_settings None None None None)
              eq_refl eq_refl) as (Hany & Hgrey & _).
  split.
  - apply (Hany 1 0 192%Z 192%Z 192%Z); [lia|reflexivity..].
  - apply (Hgrey 0 2 65%Z); [lia|reflexivity..].
Defined.

End RefinementClaims.

(** ** The settings endpoint *)

Module SettingsClaims.
Import Schema Storage Routes Samples.

(** A failed parse leaves the handler in its [catch] branch. *)
Lemma post_settings_invalid st b issues :
  parse b = ZodError issues →
  post_settings st b = (st, {| status := 400; json := ValidationMessage issues |}).
Proof. intros H. unfold post_settings. by rewrite H. Qed.

Lemma parse_number_out_of_range lo hi p q :
  Qle_bool lo q = false ∨ Qle_bool q hi = false →
  ∃ l, parse_number lo hi p (Some (JNum q)) = inl l.
Proof.
  intros H. unfold parse_number.
  destruct (Qle_bool lo q), (Qle_bool q hi); simpl; eauto.
  by destruct H.
Qed.

(** One bad field is enough for the whole parse to fail. *)
Lemma parse_bad_threshold o l :
  parse_number 0 100 "foregroundThreshold" (o !! "foregroundThreshold") = inl l →
  ∃ issues, parse (BodyObject o) = ZodError issues.
Proof.
  intros H. unfold parse. rewrite H.
  destruct (parse_model _ _), (parse_boolean _ _); eauto.
Qed.

Lemma Qle_bool_false (x y : Q) : (y < x)%Q → Qle_bool x y = false.
Proof.
  intros Hlt. destruct (Qle_bool x y) eqn:E; [|done].
  apply Qle_bool_iff in E. by apply Qlt_not_le in Hlt.
Qed.

(** C9.  A settings POST whose body fails [settingsSchema] is answered with
    status 400 and the store is the store from before the request.  A body
    whose [foregroundThreshold] is a number outside 0–100, such as 150, is
    such a body, whatever its other fields. *)
Theorem invalid_settings_rejected (st : MemStorage) :
  (∀ b issues, parse b = ZodError issues →
     post_settings st b = (st, {| status := 400; json := ValidationMessage issues |})) ∧
  (∀ o q, o !! "foregroundThreshold" = Some (JNum q) →
     (q < 0 ∨ 100 < q)%Q →
     ∃ issues, post_settings st (BodyObject o) =
               (st, {| status := 400; json := ValidationMessage issues |})).
Proof.
  split; [intros b issues; apply post_settings_invalid|].
  intros o q Ho Hq.
  destruct (parse_number_out_of_range 0 100 "foregroundThreshold" q) as [l Hl].
  { destruct Hq as [Hq|Hq]; [left|right]; by apply Qle_bool_false. }
  destruct (parse_bad_threshold o l) as [issues Hi]; [by rewrite Ho|].
  exists issues. by apply post_settings_invalid.
Qed.

Lemma invalid_settings_rejected_witness :
  ∃ issues, post_settings constructor (settings_body 150) =
            (constructor, {| status := 400; json := ValidationMessage issues |}).
Proof.
  apply (proj2 (invalid_settings_rejected constructor)
           (<["model" := JStr "u2net"]>
              (<["alphaMatting" := JBool false]>
                 (<["foregroundThreshold" := JNum 150]>
                    (<["backgroundThreshold" := JNum 50]> ∅)))) 150%Q).
  - reflexivity.
  - right. reflexivity.
Defined.

(** The same request with a threshold in range is accepted and stored. *)
Example valid_settings_stored :
  ∃ st' s, post_settings constructor (settings_body 70) =
           (st', {| status := 200; json := SettingsJson s |}) ∧
           settings st' = s ∧
           Storage.foregroundThreshold s = 70%Q ∧
           Storage.backgroundImage s = Some "".
Proof. vm_compute. eauto 10. Qed.

(** The issues reported for the threshold 150. *)
Example threshold_150_issue :
  parse (settings_body 150) = ZodError [Issue "foregroundThreshold" too_big].
Proof. vm_compute. reflexivity. Qed.

End SettingsClaims.

(** ** The model cache *)

Module ModelCacheClaims.
Import ModelCache.

Lemma run_snoc st es e : run st (es ++ [e]) = step (run st es) e.
Proof. unfold run. by rewrite foldl_app. Qed.

Lemma calls_snoc es e : calls (es ++ [e]) = calls es + (if is_call e then 1 else 0).
Proof.
  unfold calls. rewrite List.filter_app, length_app. simpl.
  by destruct (is_call e).
Qed.

(** While the cache is empty every call starts a load of its own. *)
Lemma run_calls_empty_cache k :
  run initial (replicate k Call) =
  {| bodyPixModel := None; loads := k; awaiting := seq 0 k; completed := [] |}.
Proof.
  induction k as [|k IH]; [done|].
  replace (replicate (S k) Call) with (replicate k Call ++ [Call])
    by (by rewrite <- replicate_S_end).
  by rewrite run_snoc, IH, seq_S.
Qed.

(** C10, as stated, fails.  Two calls made before the first load settles
    start two loads, both in flight at once; and when the loads settle one
    after the other, a call made after the first success returns instance 0
    while a later call returns instance 1. *)
Lemma parallel_loads_counterexample :
  loads (run initial [Call; Call]) = 2 ∧
  awaiting (run initial [Call; Call]) = [0; 1] ∧
  completed (run initial [Call; Call; Resolve 0; Call; Resolve 1; Call]) =
    [ReturnedModel 0; ReturnedModel 0; ReturnedModel 1; ReturnedModel 1].
Proof. repeat split; vm_compute; reflexivity. Qed.

(** C10, amended.  Once the cache holds a model and no load is in flight,
    whatever happens next, every further call of [loadModel] returns that
    same instance, no new load is started and the cache keeps it.  Calls
    made while the cache is still empty are not collapsed: [k] of them start
    [k] loads. *)
Theorem cached_model_reused (st : state) (m : nat) (es : list event) (k : nat)
    (Hcache : bodyPixModel st = Some m) (Hidle : awaiting st = []) :
  (bodyPixModel (run st es) = Some m ∧
   loads (run st es) = loads st ∧
   awaiting (run st es) = [] ∧
   completed (run st es) = completed st ++ replicate (calls es) (ReturnedModel m)) ∧
  (bodyPixModel (run initial (replicate k Call)) = None ∧
   loads (run initial (replicate k Call)) = k ∧
   awaiting (run initial (replicate k Call)) = seq 0 k).
Proof.
  split; [|by rewrite run_calls_empty_cache].
  induction es as [|e es IH] using rev_ind.
  - simpl. by rewrite app_nil_r.
  - destruct IH as (Hc & Hl & Ha & Hd).
    rewrite run_snoc, calls_snoc.
    destruct e as [|j|j]; unfold step, in_flight.
    + rewrite Hc. simpl. rewrite Hd, <- app_assoc.
      by rewrite replicate_add.
    + rewrite Ha. rewrite bool_decide_eq_false_2 by apply not_elem_of_nil.
      simpl. by rewrite Nat.add_0_r.
    + rewrite Ha. rewrite bool_decide_eq_false_2 by apply not_elem_of_nil.
      simpl. by rewrite Nat.add_0_r.
Qed.

Lemma cached_model_reused_witness :
  completed (run (run initial [Call; Resolve 0]) [Call; Call]) =
    [ReturnedModel 0; ReturnedModel 0; ReturnedModel 0] ∧
  loads (run (run initial [Call; Resolve 0]) [Call; Call]) = 1.
Proof.
  destruct (cached_model_reused (run initial [Call; Resolve 0]) 0 [Call; Call] 2
              eq_refl eq_refl) as [(_ & Hl & _ & Hd) _].
  split; [exact Hd|exact Hl].
Defined.

End ModelCacheClaims.
